(** * starlette_admin.fields: the field-metadata classes

    A shallow embedding of [src/starlette_admin/fields.py].  The module is a
    hierarchy of Python dataclasses, so the embedding has three layers:

    - [Py]: the Python values the fields hold, the outcome of running Python
      code (a result or a raised exception) and the two [str] methods used by
      [BaseField.__post_init__];
    - [Dataclass]: what the [@dataclass] decorator does with a class body
      (which names become constructor fields, which stay plain class
      attributes, how the generated [__init__] binds its arguments, [asdict]);
    - [Enum]: what iterating the argument of [from_enum] yields;
    - [Fields]: the class bodies of [fields.py] written as data, and its
      hand-written functions ([__post_init__], [input_params], [from_enum]);
    - [Helpers]: the imported [html_params], described by the spec only.

    Strings are sequences of ASCII characters. *)

From Stdlib Require Import String Ascii List ZArith Bool Lia.
From Stdlib Require Import DecimalString.
Import ListNotations.
Open Scope string_scope.
Set Warnings "-register-all".

(* ------------------------------------------------------------------ *)
(** ** Python values and outcomes *)

Module Py.

(** The values that occur as attributes of a field: [None], booleans,
    integers, strings, lists and dictionaries with string keys (a dictionary
    keeps its insertion order). *)
Inductive PyVal : Type :=
| VNone
| VBool (b : bool)
| VInt (z : Z)
| VStr (s : string)
| VList (l : list PyVal)
| VDict (d : list (string * PyVal)).

(** The exceptions the module can raise. *)
Inductive PyExc : Type :=
| TypeError
| AttributeError.

(** Outcome of a call: a value, a raised exception, or [Unspecified] where
    the description of an absent helper does not determine the result. *)
Inductive Outcome (A : Type) : Type :=
| Ok (a : A)
| Raise (e : PyExc)
| Unspecified.

Arguments Ok {A} a.
Arguments Raise {A} e.
Arguments Unspecified {A}.

Definition bind {A B : Type} (m : Outcome A) (k : A -> Outcome B) : Outcome B :=
  match m with
  | Ok a => k a
  | Raise e => Raise e
  | Unspecified => Unspecified
  end.

Notation "x <- m ;; k" := (bind m (fun x => k))
  (at level 61, m at next level, right associativity).

(** Lookup in an ordered mapping; the first binding of a key counts. *)
Fixpoint assoc {A : Type} (k : string) (d : list (string * A)) : option A :=
  match d with
  | [] => None
  | (k', v) :: d' => if String.eqb k k' then Some v else assoc k d'
  end.

Definition keys {A : Type} (d : list (string * A)) : list string := map fst d.

Definition mem (k : string) (ks : list string) : bool :=
  existsb (String.eqb k) ks.

(** *** [str.replace(old, new)] for a one-character [old] *)

Fixpoint replace_char (old : ascii) (new : string) (s : string) : string :=
  match s with
  | EmptyString => EmptyString
  | String c s' =>
      if Ascii.eqb c old then new ++ replace_char old new s'
      else String c (replace_char old new s')
  end.

(** *** [str.capitalize()] : first character upper-cased, the rest lower-cased *)

Definition is_lower (c : ascii) : bool :=
  let n := nat_of_ascii c in Nat.leb 97 n && Nat.leb n 122.

Definition is_upper (c : ascii) : bool :=
  let n := nat_of_ascii c in Nat.leb 65 n && Nat.leb n 90.

Definition upper (c : ascii) : ascii :=
  if is_lower c then ascii_of_nat (nat_of_ascii c - 32) else c.

Definition lower (c : ascii) : ascii :=
  if is_upper c then ascii_of_nat (nat_of_ascii c + 32) else c.

Fixpoint map_string (f : ascii -> ascii) (s : string) : string :=
  match s with
  | EmptyString => EmptyString
  | String c s' => String (f c) (map_string f s')
  end.

Definition capitalize (s : string) : string :=
  match s with
  | EmptyString => EmptyString
  | String c s' => String (upper c) (map_string lower s')
  end.

(** *** [str(v)] for the scalar values *)

Definition str_of_Z (z : Z) : string := NilZero.string_of_int (Z.to_int z).

Definition py_str (v : PyVal) : option string :=
  match v with
  | VNone => Some "None"
  | VBool true => Some "True"
  | VBool false => Some "False"
  | VInt z => Some (str_of_Z z)
  | VStr s => Some s
  | VList _ | VDict _ => None
  end.

End Py.
Import Py.

(* ------------------------------------------------------------------ *)
(** ** What [@dataclass] does with a class body *)

Module Dataclass.

(** The functions written in [fields.py], named by the class that defines
    them; a class body binds a method name to one of them. *)
Inductive Method : Type :=
| BaseField_post_init
| BaseField_dict
| StringField_input_params
| NumberField_input_params
| TextAreaField_input_params.

(** Right-hand side of an annotated attribute. *)
Inductive Default : Type :=
| NoDefault                      (* name: T *)
| Dflt (v : PyVal)               (* name: T = v *)
| Factory (mk : unit -> PyVal).  (* name: T = field(default_factory=mk) *)

Definition method_name (m : Method) : string :=
  match m with
  | BaseField_post_init => "__post_init__"
  | BaseField_dict => "dict"
  | StringField_input_params
  | NumberField_input_params
  | TextAreaField_input_params => "input_params"
  end.

(** The statements of a class body. *)
Inductive Stmt : Type :=
| Ann (name : string) (d : Default)   (* name: T [= ...] : a dataclass field *)
| Assign (name : string) (v : PyVal)  (* name = v        : a class attribute *)
| Def (m : Method).                   (* def name(self)  : a method *)

(** A class is its name, its single base and its body; [object] is the root. *)
Inductive Class : Type :=
| object
| Derive (cname : string) (base : Class) (body : list Stmt).

(** *** Class namespace and attribute lookup along the MRO *)

(** What a statement does to the name [a] of the class namespace, as the
    decorator leaves it: an assignment and an annotated attribute with a
    default bind it to that value, a bare annotation binds nothing, and the
    decorator deletes the name of a field declared with a factory. *)
Definition stmt_binds (a : string) (st : Stmt) : option (option PyVal) :=
  match st with
  | Ann n (Dflt v) => if String.eqb a n then Some (Some v) else None
  | Ann n (Factory _) => if String.eqb a n then Some None else None
  | Ann n NoDefault => None
  | Assign n v => if String.eqb a n then Some (Some v) else None
  | Def _ => None
  end.

Definition class_attr (body : list Stmt) (a : string) : option PyVal :=
  fold_left (fun acc st => match stmt_binds a st with
                           | Some r => r
                           | None => acc
                           end) body None.

Fixpoint class_getattr (c : Class) (a : string) : option PyVal :=
  match c with
  | object => None
  | Derive _ b body =>
      match class_attr body a with
      | Some v => Some v
      | None => class_getattr b a
      end
  end.

Definition own_method (body : list Stmt) (m : string) : option Method :=
  fold_left (fun acc st => match st with
                           | Def f =>
                               if String.eqb m (method_name f) then Some f
                               else acc
                           | _ => acc
                           end) body None.

Fixpoint lookup_method (c : Class) (m : string) : option Method :=
  match c with
  | object => None
  | Derive _ b body =>
      match own_method body m with
      | Some f => Some f
      | None => lookup_method b m
      end
  end.

(** *** The fields of a dataclass

    The fields of the bases come first, in their order; then the class's own
    ANNOTATED names: one that is already a field is replaced where it stands,
    a new one is appended.  A name assigned without annotation is not looked
    at.  An annotation without right-hand side takes as default the class
    attribute of that name inherited from the base, if there is one. *)

Definition Field : Type := string * Default.

Fixpoint set_field (fs : list Field) (n : string) (d : Default) : list Field :=
  match fs with
  | [] => [(n, d)]
  | (n', d') :: fs' =>
      if String.eqb n n' then (n, d) :: fs' else (n', d') :: set_field fs' n d
  end.

Definition field_default (b : Class) (n : string) (d : Default) : Default :=
  match d with
  | NoDefault => match class_getattr b n with
                 | Some v => Dflt v
                 | None => NoDefault
                 end
  | _ => d
  end.

Definition add_fields (b : Class) (body : list Stmt) (inherited : list Field)
  : list Field :=
  fold_left (fun acc st => match st with
                           | Ann n d => set_field acc n (field_default b n d)
                           | _ => acc
                           end) body inherited.

Fixpoint dc_fields (c : Class) : list Field :=
  match c with
  | object => []
  | Derive _ b body => add_fields b body (dc_fields b)
  end.

Definition field_names (c : Class) : list string := keys (dc_fields c).

(** *** Instances *)

Record Instance : Type := mkInstance
  { cls : Class;
    inst_dict : list (string * PyVal) }.

(** [self.a]: the instance dictionary first, then the classes of the MRO. *)
Definition getattr (self : Instance) (a : string) : Outcome PyVal :=
  match assoc a (inst_dict self) with
  | Some v => Ok v
  | None =>
      match class_getattr (cls self) a with
      | Some v => Ok v
      | None => Raise AttributeError
      end
  end.

Fixpoint dict_set (d : list (string * PyVal)) (a : string) (v : PyVal)
  : list (string * PyVal) :=
  match d with
  | [] => [(a, v)]
  | (k, w) :: d' =>
      if String.eqb a k then (k, v) :: d' else (k, w) :: dict_set d' a v
  end.

(** [self.a = v]: the classes are not frozen. *)
Definition setattr (self : Instance) (a : string) (v : PyVal) : Instance :=
  {| cls := cls self; inst_dict := dict_set (inst_dict self) a v |}.

(** *** The generated [__init__]

    Positional arguments fill the fields in order, keyword arguments by name;
    a field left unset takes its default.  [TypeError] for too many
    positional arguments, a keyword that names no field, a field given twice
    and a field without default left unset. *)

Definition default_value (d : Default) : Outcome PyVal :=
  match d with
  | NoDefault => Raise TypeError
  | Dflt v => Ok v
  | Factory mk => Ok (mk tt)
  end.

Fixpoint bind_params (fs : list Field) (args : list PyVal)
         (kwargs : list (string * PyVal)) : Outcome (list (string * PyVal)) :=
  match fs with
  | [] => match args with
          | [] => Ok []
          | _ :: _ => Raise TypeError
          end
  | (n, d) :: fs' =>
      match args with
      | a :: args' =>
          if mem n (keys kwargs) then Raise TypeError
          else rest <- bind_params fs' args' kwargs ;; Ok ((n, a) :: rest)
      | [] =>
          v <- match assoc n kwargs with
               | Some v => Ok v
               | None => default_value d
               end ;;
          rest <- bind_params fs' [] kwargs ;; Ok ((n, v) :: rest)
      end
  end.

Definition dataclass_init (c : Class) (args : list PyVal)
           (kwargs : list (string * PyVal)) : Outcome Instance :=
  if forallb (fun k => mem k (field_names c)) (keys kwargs)
  then d <- bind_params (dc_fields c) args kwargs ;;
       Ok {| cls := c; inst_dict := d |}
  else Raise TypeError.

(** *** [dataclasses.asdict]

    One entry per field, in field order; lists and dictionaries are rebuilt
    element by element, other values are copied. *)

Fixpoint asdict_inner (v : PyVal) : PyVal :=
  match v with
  | VList l => VList (map asdict_inner l)
  | VDict d => VDict (map (fun kv => (fst kv, asdict_inner (snd kv))) d)
  | _ => v
  end.

Fixpoint asdict_fields (self : Instance) (names : list string)
  : Outcome (list (string * PyVal)) :=
  match names with
  | [] => Ok []
  | n :: names' =>
      v <- getattr self n ;;
      rest <- asdict_fields self names' ;;
      Ok ((n, asdict_inner v) :: rest)
  end.

Definition asdict (self : Instance) : Outcome (list (string * PyVal)) :=
  asdict_fields self (field_names (cls self)).

End Dataclass.
Import Dataclass.

(* ------------------------------------------------------------------ *)
(** ** Enumeration types, as [from_enum] sees them *)

Module Enum.

(** An object, seen through its attributes. *)
Record PyObj : Type := mkObj { obj_attrs : list (string * PyVal) }.

Definition obj_getattr (o : PyObj) (a : string) : Outcome PyVal :=
  match assoc a (obj_attrs o) with
  | Some v => Ok v
  | None => Raise AttributeError
  end.

(** What can be passed where a type is expected.  An enumeration type is
    given by its members, name and value, in definition order (an alias is a
    second name of a member, not a member).  An ordinary class has the
    metaclass [type], which has no [__iter__].  A class whose metaclass
    defines [__iter__] is given by the objects the iteration yields. *)
Inductive PyType : Type :=
| EnumType (ename : string) (members : list (string * PyVal))
| PlainType (tname : string)
| IterableType (tname : string) (items : list PyObj).


Definition member_obj (m : string * PyVal) : PyObj :=
  {| obj_attrs := [("name", VStr (fst m)); ("value", snd m)] |}.

(** [iter(t)] run to the end. *)
Definition py_iter (t : PyType) : Outcome (list PyObj) :=
  match t with
  | EnumType _ ms => Ok (map member_obj ms)
  | PlainType _ => Raise TypeError
  | IterableType _ items => Ok items
  end.

(** [list(map(f, xs))] for an [f] that can raise. *)
Fixpoint map_outcome {A B : Type} (f : A -> Outcome B) (xs : list A)
  : Outcome (list B) :=
  match xs with
  | [] => Ok []
  | x :: xs' => y <- f x ;; ys <- map_outcome f xs' ;; Ok (y :: ys)
  end.

End Enum.
Import Enum.

(* ------------------------------------------------------------------ *)
(** ** The classes of [fields.py] *)

Module Fields.

Definition BaseField : Class :=
  Derive "BaseField" object
    [ Ann "name" NoDefault;
      Ann "label" (Dflt VNone);
      Ann "type" (Dflt (VStr "BaseField"));
      Ann "search_builder_type" (Dflt (VStr "default"));
      Ann "required" (Dflt (VBool false));
      Ann "is_array" (Dflt (VBool false));
      Ann "exclude_from_list" (Dflt (VBool false));
      Ann "exclude_from_detail" (Dflt (VBool false));
      Ann "exclude_from_create" (Dflt (VBool false));
      Ann "exclude_from_edit" (Dflt (VBool false));
      Ann "searchable" (Dflt (VBool true));
      Ann "orderable" (Dflt (VBool true));
      Ann "render_js" (Dflt (VStr "js/text.js"));
      Ann "form_template" (Dflt (VStr "forms/input.html"));
      Ann "form_js" (Dflt VNone);
      Ann "display_template" (Dflt (VStr "displays/text.html"));
      Ann "display_js" (Dflt VNone);
      Def BaseField_post_init;
      Def BaseField_dict ].

Definition BooleanField : Class :=
  Derive "BooleanField" BaseField
    [ Ann "type" (Dflt (VStr "BooleanField"));
      Ann "search_builder_type" (Dflt (VStr "bool"));
      Ann "render_js" (Dflt (VStr "js/bool.js"));
      Ann "form_template" (Dflt (VStr "forms/boolean.html"));
      Ann "display_template" (Dflt (VStr "displays/boolean.html")) ].

Definition StringField : Class :=
  Derive "StringField" BaseField
    [ Ann "type" (Dflt (VStr "StringField"));
      Ann "search_builder_type" (Dflt (VStr "string"));
      Assign "input_type" (VStr "text");
      Assign "class_" (VStr "field-string form-control");
      Assign "error_class" (VStr "is-invalid");
      Ann "help_text" (Dflt VNone);
      Ann "render_js" (Dflt (VStr "js/text.js"));
      Ann "form_template" (Dflt (VStr "forms/input.html"));
      Ann "display_template" (Dflt (VStr "displays/text.html"));
      Def StringField_input_params ].

Definition _NumberField : Class :=
  Derive "_NumberField" StringField
    [ Ann "type" (Dflt (VStr "NumberField"));
      Ann "search_builder_type" (Dflt (VStr "num"));
      Assign "input_type" (VStr "number");
      Ann "max" (Dflt VNone);
      Ann "min" (Dflt VNone);
      Ann "step" (Dflt VNone);
      Def NumberField_input_params ].

Definition IntegerField : Class :=
  Derive "IntegerField" _NumberField
    [ Ann "type" (Dflt (VStr "IntegerField"));
      Assign "class_" (VStr "field-integer form-control") ].

Definition DecimalField : Class :=
  Derive "DecimalField" _NumberField
    [ Ann "type" (Dflt (VStr "DecimalField"));
      Assign "step" (VStr "any");
      Assign "class_" (VStr "field-decimal form-control") ].

Definition TextAreaField : Class :=
  Derive "TextAreaField" StringField
    [ Ann "type" (Dflt (VStr "TextAreaField"));
      Ann "maxlength" (Dflt VNone);
      Ann "minlength" (Dflt VNone);
      Assign "class_" (VStr "field-textarea form-control");
      Ann "form_template" (Dflt (VStr "forms/textarea.html"));
      Def TextAreaField_input_params ].

Definition TagsField : Class :=
  Derive "TagsField" BaseField
    [ Ann "type" (Dflt (VStr "tags"));
      Ann "is_array" (Dflt (VBool true)) ].

Definition EmailField : Class :=
  Derive "EmailField" StringField
    [ Ann "type" (Dflt (VStr "email")) ].

Definition PhoneField : Class :=
  Derive "PhoneField" StringField
    [ Assign "input_type" (VStr "phone") ].

Definition EnumField : Class :=
  Derive "EnumField" BaseField
    [ Ann "type" (Dflt (VStr "enum"));
      Ann "search_builder_type" (Dflt (VStr "string"));
      Ann "values" (Factory (fun _ => VList [])) ].

Definition DateTimeField : Class :=
  Derive "DateTimeField" BaseField
    [ Ann "type" (Dflt (VStr "datetime"));
      Ann "output_format" (Dflt (VStr "%B %d, %Y %H:%M:%S"));
      Ann "search_format" (Dflt VNone);
      Ann "search_builder_type" (Dflt (VStr "moment-MMMM D, YYYY HH:mm:ss")) ].

Definition DateField : Class :=
  Derive "DateField" BaseField
    [ Ann "type" (Dflt (VStr "date"));
      Ann "output_format" (Dflt (VStr "%B %d, %Y"));
      Ann "search_format" (Dflt (VStr "YYYY-MM-DD"));
      Ann "search_builder_type" (Dflt (VStr "moment-MMMM D, YYYY")) ].

Definition TimeField : Class :=
  Derive "TimeField" BaseField
    [ Ann "type" (Dflt (VStr "time"));
      Ann "output_format" (Dflt (VStr "%H:%M:%S"));
      Ann "search_format" (Dflt (VStr "HH:mm:ss"));
      Ann "search_builder_type" (Dflt (VStr "moment-HH:mm:ss")) ].

Definition JSONField : Class :=
  Derive "JSONField" BaseField [ Ann "type" (Dflt (VStr "json")) ].

Definition FileField : Class :=
  Derive "FileField" BaseField [ Ann "type" (Dflt (VStr "file")) ].

Definition ImageField : Class :=
  Derive "ImageField" FileField [ Ann "type" (Dflt (VStr "image")) ].

Definition RelationField : Class :=
  Derive "RelationField" BaseField
    [ Ann "type" (Dflt (VStr "relation"));
      Ann "identity" (Dflt VNone) ].

Definition HasOne : Class :=
  Derive "HasOne" RelationField [].

Definition HasMany : Class :=
  Derive "HasMany" RelationField
    [ Ann "many" (Dflt (VBool true));
      Ann "is_array" (Dflt (VBool true)) ].

(** Every class the module defines. *)
Definition field_classes : list Class :=
  [ BaseField; BooleanField; StringField; _NumberField; IntegerField;
    DecimalField; TextAreaField; TagsField; EmailField; PhoneField; EnumField;
    DateTimeField; DateField; TimeField; JSONField; FileField; ImageField;
    RelationField; HasOne; HasMany ].

(** *** [BaseField.__post_init__] *)

(** [name.replace("_", " ").capitalize()]; only a string has [replace]. *)
Definition default_label (name : PyVal) : Outcome PyVal :=
  match name with
  | VStr s => Ok (VStr (capitalize (replace_char "_" " " s)))
  | _ => Raise AttributeError
  end.

Definition BaseField__post_init (self : Instance) : Outcome Instance :=
  l <- getattr self "label" ;;
  match l with
  | VNone =>
      n <- getattr self "name" ;;
      lbl <- default_label n ;;
      Ok (setattr self "label" lbl)
  | _ => Ok self
  end.

(** The generated [__init__] ends with [self.__post_init__()] when the class
    has that method. *)
Definition post_init (self : Instance) : Outcome Instance :=
  match lookup_method (cls self) "__post_init__" with
  | Some BaseField_post_init => BaseField__post_init self
  | _ => Ok self
  end.

(** A call of the class [c] with positional and keyword arguments. *)
Definition construct (c : Class) (args : list PyVal)
           (kwargs : list (string * PyVal)) : Outcome Instance :=
  self <- dataclass_init c args kwargs ;; post_init self.

(** *** [BaseField.dict] *)

Definition dict (self : Instance) : Outcome (list (string * PyVal)) :=
  match lookup_method (cls self) "dict" with
  | Some BaseField_dict => asdict self
  | _ => Raise AttributeError
  end.

(** *** [input_params]

    The methods pass a mapping to [html_params], which the module imports
    from [starlette_admin.helpers]; here they take it as an argument. *)

Section InputParams.

Variable html_params : list (string * PyVal) -> Outcome string.

Definition StringField__input_params (self : Instance) : Outcome string :=
  t <- getattr self "input_type" ;;
  html_params [("type", t)].

Definition NumberField__input_params (self : Instance) : Outcome string :=
  t <- getattr self "input_type" ;;
  mn <- getattr self "min" ;;
  mx <- getattr self "max" ;;
  st <- getattr self "step" ;;
  html_params [("type", t); ("min", mn); ("max", mx); ("step", st)].

Definition TextAreaField__input_params (self : Instance) : Outcome string :=
  mn <- getattr self "minlength" ;;
  mx <- getattr self "maxlength" ;;
  html_params [("minlength", mn); ("maxlength", mx)].

Definition input_params (self : Instance) : Outcome string :=
  match lookup_method (cls self) "input_params" with
  | Some StringField_input_params => StringField__input_params self
  | Some NumberField_input_params => NumberField__input_params self
  | Some TextAreaField_input_params => TextAreaField__input_params self
  | _ => Raise AttributeError
  end.

End InputParams.

(** *** [EnumField.from_enum] *)

Definition enum_entry (e : PyObj) : Outcome PyVal :=
  n <- obj_getattr e "name" ;;
  v <- obj_getattr e "value" ;;
  Ok (VDict [("name", n); ("value", v)]).

Definition from_enum (cls : Class) (name : PyVal) (enum_type : PyType)
           (is_array searchable search_builder_type : PyVal) : Outcome Instance :=
  items <- py_iter enum_type ;;
  values <- map_outcome enum_entry items ;;
  construct cls [name]
    [ ("values", VList values);
      ("is_array", is_array);
      ("searchable", searchable);
      ("search_builder_type", search_builder_type) ].

(** The defaults of the optional parameters of [from_enum]. *)
Definition from_enum_default (cls : Class) (name : PyVal) (enum_type : PyType)
  : Outcome Instance :=
  from_enum cls name enum_type (VBool false) (VBool true) (VStr "string").

End Fields.
Import Fields.

(* ------------------------------------------------------------------ *)
(** ** The helper [starlette_admin.helpers.html_params] *)

Module Helpers.

Definition dquote : string := String (ascii_of_nat 34) EmptyString.

(** Modelled from the spec: values are escaped for embedding in markup; the
    characters with a meaning there are the ampersand, the angle brackets and
    the two quotes. *)
Definition escape_char (c : ascii) : string :=
  match nat_of_ascii c with
  | 38 => "&amp;"
  | 60 => "&lt;"
  | 62 => "&gt;"
  | 34 => "&#34;"
  | 39 => "&#39;"
  | _ => String c EmptyString
  end.

Fixpoint escape (s : string) : string :=
  match s with
  | EmptyString => EmptyString
  | String c s' => escape_char c ++ escape s'
  end.

(** Modelled from the spec: a value is absent when it is [None] and empty
    when it is the empty string; the integer 0 is neither (the attribute
    string of [min=0] has the pair). *)
Definition is_set (v : PyVal) : bool :=
  match v with
  | VNone => false
  | VStr EmptyString => false
  | _ => true
  end.

(** Modelled from the spec: the pairs that are emitted, in the order of the
    mapping, each with the text of its value. *)
Fixpoint html_pairs (d : list (string * PyVal)) : Outcome (list (string * string)) :=
  match d with
  | [] => Ok []
  | (k, v) :: d' =>
      if is_set v
      then match py_str v with
           | Some t => rest <- html_pairs d' ;; Ok ((k, t) :: rest)
           | None => Unspecified
           end
      else html_pairs d'
  end.

Definition render_pair (kt : string * string) : string :=
  fst kt ++ "=" ++ dquote ++ escape (snd kt) ++ dquote.

(** Modelled from the spec: [html_params] lives in
    [starlette_admin/helpers.py], which is not among the sources.  The spec
    describes it: from a mapping of attribute name to optional value it
    produces one string of [key="value"] pairs joined by spaces, omits a pair
    whose value is absent or empty, and escapes the values for markup.  How a
    list or a dictionary would be written is not described. *)
Definition html_params (d : list (string * PyVal)) : Outcome string :=
  ps <- html_pairs d ;; Ok (String.concat " " (map render_pair ps)).

End Helpers.
Import Helpers.

(* ------------------------------------------------------------------ *)
(** ** Vocabulary of the statements *)

(** The annotated names of a class body. *)
Definition annotated_in (body : list Stmt) (a : string) : bool :=
  existsb (fun st => match st with
                     | Ann n _ => String.eqb a n
                     | _ => false
                     end) body.

(** A name is annotated in the class or in one of its bases. *)
Fixpoint annotated (c : Class) (a : string) : bool :=
  match c with
  | object => false
  | Derive _ b body => annotated_in body a || annotated b a
  end.

(** A name is assigned without annotation in the class or one of its bases. *)
Fixpoint assigned (c : Class) (a : string) : bool :=
  match c with
  | object => false
  | Derive _ b body =>
      existsb (fun st => match st with
                         | Assign n _ => String.eqb a n
                         | _ => false
                         end) body || assigned b a
  end.

(** The field can be left out of a call. *)
Definition has_default (f : Field) : bool :=
  match snd f with
  | NoDefault => false
  | _ => true
  end.

(** The value a field takes from the keyword arguments or from its default. *)
Definition fill (kwargs : list (string * PyVal)) (f : Field) : string * PyVal :=
  (fst f,
   match assoc (fst f) kwargs with
   | Some v => v
   | None => match snd f with
             | Dflt v => v
             | Factory mk => mk tt
             | NoDefault => VNone
             end
   end).

(** The fields after [name] and [label]. *)
Definition rest_fields (c : Class) : list Field := tl (tl (dc_fields c)).

(** Keyword overrides of a construction whose name is passed first: every
    keyword is a field, and none is [name]. *)
Definition overrides_ok (c : Class) (kwargs : list (string * PyVal)) : bool :=
  forallb (fun k => mem k (field_names c) && negb (String.eqb k "name"))
          (keys kwargs).

(** The label a construction ends with. *)
Definition final_label (s : string) (kwargs : list (string * PyVal)) : PyVal :=
  match assoc "label" kwargs with
  | None | Some VNone => VStr (capitalize (replace_char "_" " " s))
  | Some v => v
  end.





(** The entry of [values] for a member. *)
Definition member_entry (m : string * PyVal) : PyVal :=
  VDict [("name", VStr (fst m)); ("value", snd m)].


(** [pat] occurs in [s]. *)
Fixpoint contains (pat s : string) : bool :=
  String.prefix pat s ||
  match s with
  | EmptyString => false
  | String _ s' => contains pat s'
  end.

(** The text of the pair [key="value"]. *)
Definition pair_text (key value : string) : string :=
  key ++ "=" ++ dquote ++ value ++ dquote.

(** The classes that inherit [_NumberField.input_params]. *)
Definition number_classes : list Class :=
  [ _NumberField; IntegerField; DecimalField ].

(** The values the annotations of [min], [max] and [step] allow. *)
Definition opt_int (o : option Z) : PyVal :=
  match o with
  | Some z => VInt z
  | None => VNone
  end.

(** [step: Union[str, int, None]] *)
Inductive StepVal : Type :=
| StepNone
| StepInt (z : Z)
| StepStr (s : string).

Definition step_val (st : StepVal) : PyVal :=
  match st with
  | StepNone => VNone
  | StepInt z => VInt z
  | StepStr s => VStr s
  end.

(** The pairs after [type] in the attribute string of a number field. *)
Definition int_pair (key : string) (o : option Z) : list (string * string) :=
  match o with
  | Some z => [(key, str_of_Z z)]
  | None => []
  end.

(** The pair of [step]; an empty string counts as not set. *)
Definition step_pair (st : StepVal) : list (string * string) :=
  match st with
  | StepNone => []
  | StepInt z => [("step", str_of_Z z)]
  | StepStr EmptyString => []
  | StepStr s => [("step", s)]
  end.

(** The name of a class. *)
Definition cname (c : Class) : string :=
  match c with
  | object => "object"
  | Derive n _ _ => n
  end.


(** The classes that use [StringField.input_params] itself. *)
Definition text_classes : list Class :=
  [ StringField; EmailField; PhoneField ].

(** The default of the field [type] of a class. *)
Definition type_tag (c : Class) : string :=
  match class_getattr c "type" with
  | Some (VStr s) => s
  | _ => ""
  end.

(** Classes that do not set [type] share the tag of the base they take it
    from. *)
Definition tag_group (n : string) : string :=
  if String.eqb n "PhoneField" then "StringField"
  else if String.eqb n "HasOne" || String.eqb n "HasMany" then "RelationField"
  else n.

(** The default the generated [__init__] gives the field [k] of [c]. *)
Definition default_of (c : Class) (k : string) : PyVal :=
  match assoc k (dc_fields c) with
  | Some (Dflt v) => v
  | Some (Factory mk) => mk tt
  | _ => VNone
  end.

Definition opt_val (o : option PyVal) : PyVal :=
  match o with
  | Some v => v
  | None => VNone
  end.

(** The object has the attributes [name] and [value]. *)
Definition has_name_value (e : PyObj) : bool :=
  match assoc "name" (obj_attrs e), assoc "value" (obj_attrs e) with
  | Some _, Some _ => true
  | _, _ => false
  end.

(** The entry of [values] for an object that has them. *)
Definition obj_entry (e : PyObj) : PyVal :=
  VDict [ ("name", opt_val (assoc "name" (obj_attrs e)));
          ("value", opt_val (assoc "value" (obj_attrs e))) ].


(* ------------------------------------------------------------------ *)
(** ** Evaluation on small inputs *)

Example capitalize_ex : capitalize (replace_char "_" " " "email_address") = "Email address".
Proof. reflexivity. Qed.

Example str_of_Z_ex : (str_of_Z 0, str_of_Z 120, str_of_Z (-5)) = ("0", "120", "-5").
Proof. reflexivity. Qed.

Example field_names_HasMany :
  field_names HasMany =
  [ "name"; "label"; "type"; "search_builder_type"; "required"; "is_array";
    "exclude_from_list"; "exclude_from_detail"; "exclude_from_create";
    "exclude_from_edit"; "searchable"; "orderable"; "render_js";
    "form_template"; "form_js"; "display_template"; "display_js";
    "identity"; "many" ].
Proof. reflexivity. Qed.

Example textarea_maxlength :
  (self <- construct TextAreaField [] [("name", VStr "bio"); ("maxlength", VInt 500)] ;;
   input_params html_params self) = Ok (pair_text "maxlength" "500").
Proof. reflexivity. Qed.

Example unknown_keyword :
  construct BooleanField [VStr "active"] [("step", VInt 1)] = Raise TypeError.
Proof. reflexivity. Qed.

Example name_twice :
  construct BaseField [VStr "a"] [("name", VStr "b")] = Raise TypeError.
Proof. reflexivity. Qed.

Example name_missing : construct BaseField [] [] = Raise TypeError.
Proof. reflexivity. Qed.

Example base_field_has_no_input_params :
  (self <- construct BaseField [VStr "a"] [] ;; input_params html_params self)
  = Raise AttributeError.
Proof. reflexivity. Qed.

(* ------------------------------------------------------------------ *)
(** ** Ordered mappings *)

Section Mappings.

Context {A : Type}.
Implicit Types (d : list (string * A)) (k : string).

Lemma mem_In k (ks : list string) : mem k ks = true <-> In k ks.
Proof.
  unfold mem. rewrite existsb_exists. split.
  - intros [x [Hx Hk]]. apply String.eqb_eq in Hk. now subst.
  - intros H. exists k. split; [assumption | apply String.eqb_refl].
Qed.

Lemma assoc_None k d : assoc k d = None <-> ~ In k (keys d).
Proof.
  induction d as [|[k' v] d IH]; simpl.
  - tauto.
  - destruct (String.eqb k k') eqn:E.
    + apply String.eqb_eq in E. subst. split; [discriminate | tauto].
    + apply String.eqb_neq in E. rewrite IH. split.
      * intros H [H'|H']; [congruence | tauto].
      * tauto.
Qed.

Lemma assoc_In k d : In k (keys d) -> exists v, assoc k d = Some v.
Proof.
  intros H. destruct (assoc k d) eqn:E; [eauto|].
  apply assoc_None in E. contradiction.
Qed.

Lemma assoc_app_skip k d0 d :
  ~ In k (keys d0) -> assoc k (d0 ++ d) = assoc k d.
Proof.
  induction d0 as [|[k' v] d0 IH]; simpl; intros H; [reflexivity|].
  destruct (String.eqb k k') eqn:E.
  - apply String.eqb_eq in E. subst. tauto.
  - apply IH. tauto.
Qed.

Lemma forallb_mem_self (ks : list string) :
  forallb (fun k => mem k ks) ks = true.
Proof.
  apply forallb_forall. intros k Hk. now apply mem_In.
Qed.

End Mappings.

Lemma keys_dict_set d a v :
  In a (keys d) -> keys (dict_set d a v) = keys d.
Proof.
  induction d as [|[k w] d IH]; simpl; intros H; [contradiction|].
  destruct (String.eqb a k) eqn:E; simpl; [reflexivity|].
  apply String.eqb_neq in E. f_equal. apply IH.
  destruct H as [H|H]; [congruence | assumption].
Qed.

Lemma assoc_dict_set_same d a v : assoc a (dict_set d a v) = Some v.
Proof.
  induction d as [|[k w] d IH]; simpl.
  - now rewrite String.eqb_refl.
  - destruct (String.eqb a k) eqn:E; simpl; rewrite E; [reflexivity | exact IH].
Qed.

Lemma assoc_dict_set_other d a b v :
  a <> b -> assoc b (dict_set d a v) = assoc b d.
Proof.
  intros Hab. induction d as [|[k w] d IH]; simpl.
  - destruct (String.eqb b a) eqn:E; [|reflexivity].
    apply String.eqb_eq in E. congruence.
  - destruct (String.eqb a k) eqn:E; simpl.
    + apply String.eqb_eq in E. subst k.
      destruct (String.eqb b a) eqn:E'; [|reflexivity].
      apply String.eqb_eq in E'. congruence.
    + now rewrite IH.
Qed.

(* ------------------------------------------------------------------ *)
(** ** Fields of a dataclass *)

Lemma keys_set_field fs n d a :
  In a (keys (set_field fs n d)) <-> a = n \/ In a (keys fs).
Proof.
  induction fs as [|[n' d'] fs IH]; simpl.
  - intuition congruence.
  - destruct (String.eqb n n') eqn:E; simpl.
    + apply String.eqb_eq in E. subst. intuition congruence.
    + rewrite IH. intuition congruence.
Qed.

Lemma NoDup_set_field fs n d :
  NoDup (keys fs) -> NoDup (keys (set_field fs n d)).
Proof.
  induction fs as [|[n' d'] fs IH]; simpl; intros H.
  - constructor; [intros [] | constructor].
  - inversion H as [|? ? Hn Hnd]; subst.
    destruct (String.eqb n n') eqn:E; simpl.
    + apply String.eqb_eq in E. subst. now constructor.
    + apply String.eqb_neq in E. constructor; [|auto].
      rewrite keys_set_field. intros [H'|H']; [congruence | contradiction].
Qed.

Lemma keys_add_fields b body fs a :
  In a (keys (add_fields b body fs)) <->
  annotated_in body a = true \/ In a (keys fs).
Proof.
  unfold add_fields. revert fs.
  induction body as [|st body IH]; intros fs; simpl.
  - intuition discriminate.
  - rewrite IH. destruct st as [n d| n v | m]; simpl; [|tauto|tauto].
    rewrite keys_set_field, orb_true_iff, String.eqb_eq. tauto.
Qed.

Lemma NoDup_add_fields b body fs :
  NoDup (keys fs) -> NoDup (keys (add_fields b body fs)).
Proof.
  unfold add_fields. revert fs.
  induction body as [|st body IH]; intros fs H; simpl; [assumption|].
  apply IH. destruct st; auto using NoDup_set_field.
Qed.

(** The fields of a dataclass are exactly the annotated names of its MRO. *)
Lemma field_names_annotated c a :
  In a (field_names c) <-> annotated c a = true.
Proof.
  unfold field_names. induction c as [|cn b IH body]; simpl.
  - intuition discriminate.
  - rewrite keys_add_fields, orb_true_iff, IH. tauto.
Qed.

Lemma field_names_NoDup c : NoDup (field_names c).
Proof.
  unfold field_names. induction c as [|cn b IH body]; simpl.
  - constructor.
  - now apply NoDup_add_fields.
Qed.

(* ------------------------------------------------------------------ *)
(** ** The generated constructor and [asdict] *)

Lemma bind_Ok {A B : Type} (m : Outcome A) (k : A -> Outcome B) (b : B) :
  bind m k = Ok b -> exists a, m = Ok a /\ k a = Ok b.
Proof.
  destruct m as [a| |]; simpl; intros H; try discriminate. eauto.
Qed.

(** A successful binding gives every field a value, in field order. *)
Lemma bind_params_keys fs args kwargs d :
  bind_params fs args kwargs = Ok d -> keys d = keys fs.
Proof.
  revert args d. induction fs as [|[n dflt] fs IH]; intros args d; simpl.
  - destruct args; intros H; inversion H. reflexivity.
  - destruct args as [|a args].
    + intros H. apply bind_Ok in H as [v [_ H]].
      apply bind_Ok in H as [rest [Hrest H]]. inversion H; subst.
      simpl. f_equal. eapply IH, Hrest.
    + destruct (mem n (keys kwargs)); [discriminate|].
      intros H. apply bind_Ok in H as [rest [Hrest H]]. inversion H; subst.
      simpl. f_equal. eapply IH, Hrest.
Qed.

(** Keyword arguments that name every field once are bound as they are. *)
Lemma bind_params_exact fs : forall d0 d,
  keys d = keys fs -> NoDup (keys (d0 ++ d)) ->
  bind_params fs [] (d0 ++ d) = Ok d.
Proof.
  induction fs as [|[n dflt] fs IH]; intros d0 d Hk Hnd.
  - destruct d; [reflexivity | discriminate].
  - destruct d as [|[k v] d]; [discriminate|].
    simpl in Hk. inversion Hk; subst k. simpl.
    assert (Hn : ~ In n (keys d0)).
    { unfold keys in *. rewrite map_app in Hnd. simpl in Hnd.
      apply NoDup_remove_2 in Hnd. rewrite in_app_iff in Hnd. tauto. }
    rewrite assoc_app_skip by assumption. simpl. rewrite String.eqb_refl. simpl.
    change (d0 ++ (n, v) :: d)%list with (d0 ++ [(n, v)] ++ d)%list.
    rewrite app_assoc. rewrite IH.
    + reflexivity.
    + assumption.
    + rewrite <- app_assoc. exact Hnd.
Qed.

Lemma bind_params_self fs d :
  keys d = keys fs -> NoDup (keys d) -> bind_params fs [] d = Ok d.
Proof. exact (bind_params_exact fs [] d). Qed.

Lemma asdict_inner_id : forall v, asdict_inner v = v.
Proof.
  fix IH 1. intros [ | b | z | s | l | d]; simpl; try reflexivity.
  - f_equal. induction l as [|x l IHl]; simpl; [reflexivity|].
    now rewrite IH, IHl.
  - f_equal. induction d as [|[k x] d IHd]; simpl; [reflexivity|].
    now rewrite IH, IHd.
Qed.

(** When the instance dictionary holds each name once, reading the names of
    a tail of it gives that tail back. *)
Lemma asdict_fields_self c : forall d0 d,
  NoDup (keys (d0 ++ d)) ->
  asdict_fields {| cls := c; inst_dict := d0 ++ d |} (keys d) = Ok d.
Proof.
  intros d0 d. revert d0. induction d as [|[k v] d IH]; intros d0 Hnd.
  - reflexivity.
  - simpl. unfold getattr. simpl.
    assert (Hn : ~ In k (keys d0)).
    { unfold keys in *. rewrite map_app in Hnd. simpl in Hnd.
      apply NoDup_remove_2 in Hnd. rewrite in_app_iff in Hnd. tauto. }
    rewrite assoc_app_skip by assumption. simpl. rewrite String.eqb_refl. simpl.
    change (d0 ++ (k, v) :: d)%list with (d0 ++ [(k, v)] ++ d)%list in *.
    rewrite app_assoc in *. rewrite IH by assumption. simpl.
    now rewrite asdict_inner_id.
Qed.

(** The names [asdict] reads are the keys of its result. *)
Lemma asdict_fields_keys self names d :
  asdict_fields self names = Ok d -> keys d = names.
Proof.
  revert d. induction names as [|n names IH]; intros d; simpl.
  - intros H. inversion H. reflexivity.
  - intros H. apply bind_Ok in H as [v [_ H]].
    apply bind_Ok in H as [rest [Hrest H]]. inversion H; subst.
    simpl. f_equal. now apply IH.
Qed.

(** [asdict] of an instance whose dictionary holds exactly the fields. *)
Lemma asdict_exact self :
  keys (inst_dict self) = field_names (cls self) ->
  asdict self = Ok (inst_dict self).
Proof.
  destruct self as [c d]. simpl. intros Hk. unfold asdict. simpl.
  rewrite <- Hk. apply (asdict_fields_self c [] d). simpl. rewrite Hk.
  apply field_names_NoDup.
Qed.

(** What [__post_init__] leaves of a dictionary that has a label. *)
Lemma post_init_inv self self' :
  In "label" (keys (inst_dict self)) ->
  BaseField__post_init self = Ok self' ->
  cls self' = cls self /\
  keys (inst_dict self') = keys (inst_dict self) /\
  exists l, assoc "label" (inst_dict self') = Some l /\ l <> VNone.
Proof.
  intros Hin. unfold BaseField__post_init, getattr.
  destruct (assoc_In _ _ Hin) as [l Hl]. rewrite Hl. simpl.
  destruct l; try (intros H; inversion H; subst; repeat split; auto;
                   eexists; split; [eassumption | discriminate]).
  intros H. apply bind_Ok in H as [n [_ H]].
  apply bind_Ok in H as [lbl [Hlbl H]]. inversion H; subst. simpl.
  repeat split.
  - now apply keys_dict_set.
  - exists lbl. split; [apply assoc_dict_set_same|].
    destruct n; simpl in Hlbl; inversion Hlbl. discriminate.
Qed.

(* ------------------------------------------------------------------ *)
(** ** Construction of the classes of [fields.py] *)

Lemma field_class_shape c :
  In c field_classes ->
  dc_fields c = ("name", NoDefault) :: ("label", Dflt VNone) :: rest_fields c /\
  forallb has_default (rest_fields c) = true /\
  lookup_method c "__post_init__" = Some BaseField_post_init /\
  lookup_method c "dict" = Some BaseField_dict.
Proof.
  intros H. unfold field_classes in H. simpl in H.
  repeat (destruct H as [<- | H]; [repeat split; vm_compute; reflexivity|]).
  contradiction.
Qed.

Lemma field_class_label c : In c field_classes -> In "label" (field_names c).
Proof.
  intros H. apply field_class_shape in H as [E _].
  unfold field_names. rewrite E. simpl. tauto.
Qed.

Lemma bind_params_defaults fs kwargs :
  forallb has_default fs = true ->
  bind_params fs [] kwargs = Ok (map (fill kwargs) fs).
Proof.
  induction fs as [|[n d] fs IH]; simpl; intros H; [reflexivity|].
  apply andb_true_iff in H as [Hd Hfs]. rewrite (IH Hfs). unfold fill at 2. simpl.
  destruct (assoc n kwargs); [reflexivity|].
  destruct d; [discriminate | reflexivity | reflexivity].
Qed.

(** The instance a class called with a name and overrides gives. *)
Lemma construct_named c s kwargs :
  In c field_classes -> overrides_ok c kwargs = true ->
  construct c [VStr s] kwargs =
  Ok {| cls := c;
        inst_dict := ("name", VStr s) :: ("label", final_label s kwargs)
                       :: map (fill kwargs) (rest_fields c) |}.
Proof.
  intros Hc Hkw. destruct (field_class_shape c Hc) as (Hf & Hd & Hpi & _).
  unfold overrides_ok in Hkw. rewrite forallb_forall in Hkw.
  assert (Hall : forallb (fun k => mem k (field_names c)) (keys kwargs) = true).
  { apply forallb_forall. intros k Hk. apply Hkw in Hk.
    now apply andb_true_iff in Hk as [Hk _]. }
  assert (Hname : mem "name" (keys kwargs) = false).
  { destruct (mem "name" (keys kwargs)) eqn:E; [|reflexivity].
    apply mem_In, Hkw, andb_true_iff in E as [_ E]. discriminate. }
  unfold construct, dataclass_init. rewrite Hall, Hf. simpl bind_params.
  rewrite Hname, (bind_params_defaults _ _ Hd). unfold final_label.
  destruct (assoc "label" kwargs) as [l|] eqn:El; simpl;
    unfold post_init; simpl cls; rewrite Hpi;
    [destruct l|]; reflexivity.
Qed.

(** What is known of any instance a call of a class returned. *)
Lemma construct_inv c args kwargs self :
  In c field_classes -> construct c args kwargs = Ok self ->
  cls self = c /\ keys (inst_dict self) = field_names c /\
  exists l, assoc "label" (inst_dict self) = Some l /\ l <> VNone.
Proof.
  intros Hc H. unfold construct in H. apply bind_Ok in H as [self0 [H0 H]].
  unfold dataclass_init in H0.
  destruct (forallb _ _); [|discriminate].
  apply bind_Ok in H0 as [d [Hd H0]]. inversion H0; subst self0. clear H0.
  apply bind_params_keys in Hd.
  unfold post_init in H. simpl cls in H.
  destruct (field_class_shape c Hc) as (_ & _ & Hpi & _). rewrite Hpi in H.
  apply post_init_inv in H.
  - simpl in H. destruct H as (Hcls & Hk & Hl). rewrite Hk. auto.
  - simpl. fold (field_names c) in Hd. rewrite Hd. now apply field_class_label.
Qed.

(* ------------------------------------------------------------------ *)
(** ** The default label *)




Lemma replace_char_empty s : replace_char "_" " " s = "" -> s = "".
Proof.
  destruct s as [|c s]; simpl; [reflexivity|].
  destruct (Ascii.eqb c "_"); discriminate.
Qed.

Lemma capitalize_empty s : capitalize s = "" -> s = "".
Proof. destruct s; [reflexivity | discriminate]. Qed.




(** C6, as the code has it.  After construction the label is the label that
    was supplied or, when none was, the one derived from the name; the
    derived label is a non-empty string whenever the name is non-empty.  The
    label is not recomputed when the name is assigned afterwards. *)
Theorem label_fixed c s kwargs :
  In c field_classes -> overrides_ok c kwargs = true ->
  exists self,
    construct c [VStr s] kwargs = Ok self /\
    getattr self "label" = Ok (final_label s kwargs) /\
    (assoc "label" kwargs = None -> s <> "" ->
     exists l, getattr self "label" = Ok (VStr l) /\ l <> "") /\
    (forall n, getattr (setattr self "name" n) "label" = getattr self "label").
Proof.
  intros Hc Hkw. eexists. split; [apply construct_named; assumption|].
  unfold getattr, final_label. simpl. repeat split.
  intros Hl Hs. rewrite Hl. eexists. split; [reflexivity|].
  intros E. apply capitalize_empty, replace_char_empty in E. contradiction.
Qed.

Lemma label_fixed_witness :
  exists self,
    construct TagsField [VStr "post_tags"] [] = Ok self /\
    getattr self "label" = Ok (VStr "Post tags") /\
    (assoc "label" (@nil (string * PyVal)) = None -> "post_tags" <> "" ->
     exists l, getattr self "label" = Ok (VStr l) /\ l <> "") /\
    (forall n, getattr (setattr self "name" n) "label" = getattr self "label").
Proof.
  apply (label_fixed TagsField "post_tags" []).
  - simpl. tauto.
  - reflexivity.
Defined.

(** C6, as stated, fails: a field whose name is the empty string has the
    empty label. *)
Lemma label_fixed_counterexample :
  exists self,
    construct BaseField [VStr ""] [] = Ok self /\
    getattr self "label" = Ok (VStr "").
Proof.
  eexists. split; reflexivity.
Qed.

(* ------------------------------------------------------------------ *)
(** ** Serialization *)

Lemma dict_of_constructed c args kwargs self :
  In c field_classes -> construct c args kwargs = Ok self ->
  dict self = Ok (inst_dict self).
Proof.
  intros Hc H. destruct (construct_inv _ _ _ _ Hc H) as (Hcls & Hk & _).
  destruct (field_class_shape c Hc) as (_ & _ & _ & Hd).
  unfold dict. rewrite Hcls, Hd. apply asdict_exact. now rewrite Hcls.
Qed.

(** C7, as the code has it.  The mapping of an instance has one key per
    dataclass field of its class, that is, per name ANNOTATED in the class or
    one of its bases, inherited and defaulted ones included; names assigned
    without annotation ([input_type], [class_], [error_class]) are not
    fields and are not keys.  Two instances of one class have the same keys,
    in the same order. *)
Theorem dict_keys c args1 kwargs1 self1 args2 kwargs2 self2 :
  In c field_classes ->
  construct c args1 kwargs1 = Ok self1 ->
  construct c args2 kwargs2 = Ok self2 ->
  exists d1 d2,
    dict self1 = Ok d1 /\ dict self2 = Ok d2 /\
    keys d1 = field_names c /\ keys d2 = keys d1 /\
    (forall a, In a (keys d1) <-> annotated c a = true).
Proof.
  intros Hc H1 H2.
  exists (inst_dict self1), (inst_dict self2).
  destruct (construct_inv _ _ _ _ Hc H1) as (_ & Hk1 & _).
  destruct (construct_inv _ _ _ _ Hc H2) as (_ & Hk2 & _).
  repeat split; eauto using dict_of_constructed; try congruence.
  - rewrite Hk1. apply field_names_annotated.
  - rewrite Hk1. apply field_names_annotated.
Qed.

Lemma dict_keys_witness :
  exists d1 d2,
    dict {| cls := StringField;
            inst_dict := ("name", VStr "a") :: ("label", VStr "A")
                           :: map (fill []) (rest_fields StringField) |} = Ok d1 /\
    dict {| cls := StringField;
            inst_dict := ("name", VStr "b") :: ("label", VStr "Bee")
                           :: map (fill [("label", VStr "Bee"); ("help_text", VStr "h")])
                                  (rest_fields StringField) |} = Ok d2 /\
    keys d1 = field_names StringField /\ keys d2 = keys d1 /\
    (forall a, In a (keys d1) <-> annotated StringField a = true).
Proof.
  apply (dict_keys StringField
           [VStr "a"] []
           _
           [VStr "b"] [("label", VStr "Bee"); ("help_text", VStr "h")]
           _).
  - simpl. tauto.
  - reflexivity.
  - reflexivity.
Defined.

(** C7, as stated, fails: [input_type] is declared by [StringField] and can
    be read on an instance, and the mapping has no such key. *)
Lemma dict_keys_counterexample :
  exists self d,
    construct StringField [VStr "title"] [] = Ok self /\
    dict self = Ok d /\
    assigned StringField "input_type" = true /\
    getattr self "input_type" = Ok (VStr "text") /\
    assoc "input_type" d = None.
Proof.
  do 2 eexists. repeat split; reflexivity.
Qed.

(** C8.  The mapping of a constructed field, passed back to the class as
    keyword arguments, gives the same field again: same class, same
    attribute values as the construction it came from. *)
Theorem dict_roundtrip c args kwargs self :
  In c field_classes -> construct c args kwargs = Ok self ->
  exists d, dict self = Ok d /\ construct c [] d = Ok self.
Proof.
  intros Hc H. exists (inst_dict self).
  split; [eapply dict_of_constructed; eassumption|].
  destruct (construct_inv _ _ _ _ Hc H) as (Hcls & Hk & l & Hl & Hnone).
  destruct (field_class_shape c Hc) as (_ & _ & Hpi & _).
  destruct self as [c' d]. simpl in *. subst c'.
  unfold construct, dataclass_init. rewrite Hk, forallb_mem_self.
  rewrite (bind_params_self (dc_fields c) d Hk).
  - simpl. unfold post_init. simpl cls. rewrite Hpi.
    unfold BaseField__post_init, getattr. simpl inst_dict. rewrite Hl. simpl.
    destruct l; congruence.
  - rewrite Hk. apply field_names_NoDup.
Qed.

Lemma dict_roundtrip_witness :
  exists d,
    dict {| cls := HasMany;
            inst_dict := ("name", VStr "tags") :: ("label", VStr "Tags")
                           :: map (fill [("identity", VStr "Tag")])
                                  (rest_fields HasMany) |} = Ok d /\
    construct HasMany [] d =
    Ok {| cls := HasMany;
          inst_dict := ("name", VStr "tags") :: ("label", VStr "Tags")
                         :: map (fill [("identity", VStr "Tag")])
                                (rest_fields HasMany) |}.
Proof.
  apply (dict_roundtrip HasMany [VStr "tags"] [("identity", VStr "Tag")]).
  - simpl. tauto.
  - reflexivity.
Defined.

(* ------------------------------------------------------------------ *)
(** ** Relations *)

(** C9.  A [HasMany] constructed with a name and an identity only has
    [many] and [is_array] true; a [HasOne] so constructed has [is_array]
    false. *)
Theorem relation_defaults (name identity : string) :
  (exists self,
      construct HasMany [] [("name", VStr name); ("identity", VStr identity)] = Ok self /\
      getattr self "many" = Ok (VBool true) /\
      getattr self "is_array" = Ok (VBool true)) /\
  (exists self,
      construct HasOne [] [("name", VStr name); ("identity", VStr identity)] = Ok self /\
      getattr self "is_array" = Ok (VBool false)).
Proof.
  split; eexists; repeat split; reflexivity.
Qed.

(* ------------------------------------------------------------------ *)
(** ** Enumerations *)

Lemma enum_entries ms :
  map_outcome enum_entry (map member_obj ms) = Ok (map member_entry ms).
Proof.
  induction ms as [|[n v] ms IH]; simpl; [reflexivity|].
  now rewrite IH.
Qed.

(** C3.  For an enumeration type, [from_enum] gives a field whose [values]
    has one entry per member, in the order of the members, each the mapping
    of [name] to the member's name and [value] to its value. *)
Theorem from_enum_values name ename members is_array searchable sbt :
  (exists self,
      from_enum EnumField (VStr name) (EnumType ename members)
                is_array searchable sbt = Ok self /\
      getattr self "values" = Ok (VList (map member_entry members))) /\
  (exists self,
      from_enum_default EnumField (VStr "status")
        (EnumType "StatusEnum" [("NEW", VStr "new"); ("DONE", VStr "done")]) = Ok self /\
      getattr self "values" =
      Ok (VList [ VDict [("name", VStr "NEW"); ("value", VStr "new")];
                  VDict [("name", VStr "DONE"); ("value", VStr "done")] ])).
Proof.
  split.
  - unfold from_enum. cbn [py_iter bind]. rewrite enum_entries. cbn [bind].
    generalize (map member_entry members). intros vs.
    eexists. split; reflexivity.
  - eexists. split; reflexivity.
Qed.




(* ------------------------------------------------------------------ *)
(** ** Attribute strings *)

(** C5.  The attribute string of [IntegerField(name="age", min=0, max=120)]
    is [type="number" min="0" max="120"]: it has the three pairs and no
    [step].  For every number class and every [min], [max] and [step] of the
    annotated types, the string is the pairs of [type], [min], [max] and
    [step] in that order, joined by spaces, [type] being [number] and each of
    the others present exactly when it is set. *)
Theorem number_input_params c name mn mx st :
  In c number_classes ->
  (exists self,
      construct IntegerField []
        [("name", VStr "age"); ("min", VInt 0); ("max", VInt 120)] = Ok self /\
      exists out,
        input_params html_params self = Ok out /\
        out = pair_text "type" "number" ++ " " ++ pair_text "min" "0"
                ++ " " ++ pair_text "max" "120" /\
        contains (pair_text "type" "number") out = true /\
        contains (pair_text "min" "0") out = true /\
        contains (pair_text "max" "120") out = true /\
        contains "step" out = false) /\
  (exists self,
      construct c [VStr name]
        [("min", opt_int mn); ("max", opt_int mx); ("step", step_val st)] = Ok self /\
      (forall h, input_params h self =
                 h [("type", VStr "number"); ("min", opt_int mn);
                    ("max", opt_int mx); ("step", step_val st)]) /\
      input_params html_params self =
      Ok (String.concat " "
            (map render_pair
                 ([("type", "number")] ++ int_pair "min" mn ++ int_pair "max" mx
                    ++ step_pair st)))).
Proof.
  intros Hc. split.
  - eexists. split; [reflexivity|]. eexists. repeat split; reflexivity.
  - simpl in Hc.
    destruct Hc as [<- | [<- | [<- | []]]];
      destruct mn as [zmin|], mx as [zmax|], st as [ | zstep | [|a s]];
      eexists; (split; [reflexivity|]); split; reflexivity.
Qed.

Lemma number_input_params_witness :
  exists self,
    construct DecimalField [VStr "price"]
      [("min", VInt 0); ("max", VNone); ("step", VStr "0.01")] = Ok self /\
    (forall h, input_params h self =
               h [("type", VStr "number"); ("min", VInt 0);
                  ("max", VNone); ("step", VStr "0.01")]) /\
    input_params html_params self =
    Ok (pair_text "type" "number" ++ " " ++ pair_text "min" "0"
          ++ " " ++ pair_text "step" "0.01").
Proof.
  apply (number_input_params DecimalField "price" (Some 0%Z) None (StepStr "0.01")).
  simpl. tauto.
Defined.

(** C2, on the code.  [DecimalField] assigns [step = "any"] without an
    annotation, so the name stays a class attribute and the field [step]
    inherited from [_NumberField] keeps its default [None]; the constructor
    stores that [None] on the instance, where it hides the class attribute.
    A [DecimalField] constructed without [step] has [step] [None], and
    [input_params] passes [step=None] to the helper, whatever the helper. *)
Theorem decimal_step_default (name : string)
        (h : list (string * PyVal) -> Outcome string) :
  class_getattr DecimalField "step" = Some (VStr "any") /\
  assoc "step" (dc_fields DecimalField) = Some (Dflt VNone) /\
  exists self,
    construct DecimalField [VStr name] [] = Ok self /\
    getattr self "step" = Ok VNone /\
    input_params h self =
    h [("type", VStr "number"); ("min", VNone); ("max", VNone); ("step", VNone)].
Proof.
  repeat split. eexists. repeat split; reflexivity.
Qed.

(* ------------------------------------------------------------------ *)
(** ** Phone fields *)

(** C10.  [PhoneField] annotates nothing, so it has the fields and defaults
    of [StringField], the type tag ["StringField"] among them.  Constructed
    with the same arguments, a phone field and a string field have the same
    attribute mapping and the same type tag.  Their [input_params] differ:
    the helper is given [type=phone] for the one and [type=text] for the
    other, which the helper of the spec writes [type="phone"] and
    [type="text"]. *)
Theorem phone_like_string name kwargs :
  overrides_ok StringField kwargs = true ->
  exists sf pf,
    construct StringField [VStr name] kwargs = Ok sf /\
    construct PhoneField [VStr name] kwargs = Ok pf /\
    (exists d, dict sf = Ok d /\ dict pf = Ok d) /\
    getattr pf "type" = getattr sf "type" /\
    (assoc "type" kwargs = None -> getattr pf "type" = Ok (VStr "StringField")) /\
    (forall h, input_params h sf = h [("type", VStr "text")] /\
               input_params h pf = h [("type", VStr "phone")]) /\
    input_params html_params sf = Ok (pair_text "type" "text") /\
    input_params html_params pf = Ok (pair_text "type" "phone") /\
    input_params html_params pf <> input_params html_params sf.
Proof.
  intros Hkw.
  assert (Hs : In StringField field_classes) by (simpl; tauto).
  assert (Hp : In PhoneField field_classes) by (simpl; tauto).
  pose proof (construct_named StringField name kwargs Hs Hkw) as Es.
  pose proof (construct_named PhoneField name kwargs Hp Hkw) as Ep.
  change (rest_fields PhoneField) with (rest_fields StringField) in Ep.
  do 2 eexists. split; [exact Es|]. split; [exact Ep|].
  split; [|split; [|split; [|split; [|split; [|split]]]]].
  - eexists. split.
    + exact (dict_of_constructed _ _ _ _ Hs Es).
    + exact (dict_of_constructed _ _ _ _ Hp Ep).
  - reflexivity.
  - intros Ht. unfold getattr. cbn. rewrite Ht. reflexivity.
  - intros h. split; reflexivity.
  - reflexivity.
  - reflexivity.
  - discriminate.
Qed.

Lemma phone_like_string_witness :
  exists sf pf,
    construct StringField [VStr "mobile"] [("required", VBool true)] = Ok sf /\
    construct PhoneField [VStr "mobile"] [("required", VBool true)] = Ok pf /\
    (exists d, dict sf = Ok d /\ dict pf = Ok d) /\
    getattr pf "type" = getattr sf "type" /\
    (assoc "type" [("required", VBool true)] = None ->
     getattr pf "type" = Ok (VStr "StringField")) /\
    (forall h, input_params h sf = h [("type", VStr "text")] /\
               input_params h pf = h [("type", VStr "phone")]) /\
    input_params html_params sf = Ok (pair_text "type" "text") /\
    input_params html_params pf = Ok (pair_text "type" "phone") /\
    input_params html_params pf <> input_params html_params sf.
Proof.
  apply (phone_like_string "mobile" [("required", VBool true)]).
  reflexivity.
Defined.

(* ------------------------------------------------------------------ *)
(** ** Calls the constructor rejects *)

Lemma bind_params_too_many fs : forall args kwargs,
  length fs < length args -> bind_params fs args kwargs = Raise TypeError.
Proof.
  induction fs as [|[n dflt] fs IH]; intros args kwargs H; simpl.
  - destruct args; [simpl in H; lia | reflexivity].
  - destruct args as [|a args]; [simpl in H; lia|].
    destruct (mem n (keys kwargs)); [reflexivity|].
    rewrite IH by (simpl in H; lia). reflexivity.
Qed.

(** X1.  A keyword that names no field of the class makes the call fail
    with [TypeError], whatever the other arguments are. *)
Theorem unknown_keyword_rejected c args kwargs k :
  In k (keys kwargs) -> ~ In k (field_names c) ->
  construct c args kwargs = Raise TypeError.
Proof.
  intros Hk Hn. unfold construct, dataclass_init.
  destruct (forallb _ _) eqn:E; [|reflexivity].
  rewrite forallb_forall in E. apply E, mem_In in Hk. contradiction.
Qed.

Lemma unknown_keyword_rejected_witness :
  construct HasOne [VStr "owner"] [("many", VBool true)] = Raise TypeError.
Proof.
  apply (unknown_keyword_rejected HasOne [VStr "owner"] [("many", VBool true)] "many").
  - simpl. tauto.
  - vm_compute. intuition discriminate.
Defined.

(** X2.  A call without a name, positional or keyword, fails with
    [TypeError]: [name] is the one field without default, in every class. *)
Theorem missing_name_rejected c kwargs :
  In c field_classes -> ~ In "name" (keys kwargs) ->
  construct c [] kwargs = Raise TypeError.
Proof.
  intros Hc Hn. destruct (field_class_shape c Hc) as (Hf & _).
  unfold construct, dataclass_init.
  destruct (forallb _ _); [|reflexivity].
  rewrite Hf. simpl bind_params.
  apply assoc_None in Hn. rewrite Hn. reflexivity.
Qed.

Lemma missing_name_rejected_witness :
  construct DateField [] [("label", VStr "Born")] = Raise TypeError.
Proof.
  apply (missing_name_rejected DateField [("label", VStr "Born")]).
  - simpl. tauto.
  - vm_compute. intuition discriminate.
Defined.

(** X3.  More positional arguments than the class has fields make the call
    fail with [TypeError]. *)
Theorem too_many_positional_rejected c args kwargs :
  length (field_names c) < length args ->
  construct c args kwargs = Raise TypeError.
Proof.
  intros H. unfold construct, dataclass_init.
  destruct (forallb _ _); [|reflexivity].
  rewrite bind_params_too_many; [reflexivity|].
  unfold field_names, keys in H. now rewrite length_map in H.
Qed.

Lemma too_many_positional_rejected_witness :
  construct JSONField (repeat VNone 18) [] = Raise TypeError.
Proof.
  apply (too_many_positional_rejected JSONField (repeat VNone 18) []).
  vm_compute. lia.
Defined.

(* ------------------------------------------------------------------ *)
(** ** What the constructor stores *)




Lemma assoc_map_fill kwargs k fs :
  assoc k (map (fill kwargs) fs) =
  match assoc k fs with
  | Some d => Some (snd (fill kwargs (k, d)))
  | None => None
  end.
Proof.
  induction fs as [|[n d] fs IH]; simpl; [reflexivity|].
  destruct (String.eqb k n) eqn:E; [|exact IH].
  apply String.eqb_eq in E. now subst.
Qed.

Lemma assoc_has_default k fs d :
  forallb has_default fs = true -> assoc k fs = Some d -> d <> NoDefault.
Proof.
  induction fs as [|[n d'] fs IH]; simpl; [discriminate|].
  intros H. apply andb_true_iff in H as [Hd Hfs].
  destruct (String.eqb k n); [|now apply IH].
  intros E. inversion E; subst. intros ->. discriminate.
Qed.

(** X5.  Nothing is validated or converted: after a call with a name and
    overrides, every field other than [name] and [label] holds the override
    given for it, unchanged, and the default of its class when none is
    given. *)
Theorem overrides_stored c s kwargs k :
  In c field_classes -> overrides_ok c kwargs = true ->
  In k (field_names c) -> k <> "name" -> k <> "label" ->
  exists self,
    construct c [VStr s] kwargs = Ok self /\
    getattr self k = Ok (match assoc k kwargs with
                         | Some v => v
                         | None => default_of c k
                         end).
Proof.
  intros Hc Hkw Hk Hn Hl. eexists. split; [apply construct_named; assumption|].
  destruct (field_class_shape c Hc) as (Hf & Hd & _).
  apply String.eqb_neq in Hn, Hl.
  unfold getattr, default_of. simpl. rewrite Hn, Hl, assoc_map_fill.
  rewrite Hf. simpl. rewrite Hn, Hl.
  destruct (assoc_In k (rest_fields c)) as [d Ed].
  { unfold field_names in Hk. rewrite Hf in Hk. simpl in Hk.
    apply String.eqb_neq in Hn, Hl. destruct Hk as [E | [E | Hk]]; congruence. }
  rewrite Ed. simpl. destruct (assoc k kwargs); [reflexivity|].
  pose proof (assoc_has_default _ _ _ Hd Ed) as Hnd.
  destruct d; [contradiction | reflexivity | reflexivity].
Qed.

Lemma overrides_stored_witness :
  exists self,
    construct IntegerField [VStr "age"] [("min", VInt 9); ("max", VInt 1)] = Ok self /\
    getattr self "max" = Ok (VInt 1).
Proof.
  apply (overrides_stored IntegerField "age" [("min", VInt 9); ("max", VInt 1)] "max").
  - simpl. tauto.
  - reflexivity.
  - vm_compute. tauto.
  - discriminate.
  - discriminate.
Defined.

(** X6.  No class changes the defaults of the flags: a field of any class
    constructed with a name only is not required, is shown in the four views,
    is searchable and orderable and has no [form_js] and [display_js]; it is
    an array exactly in [TagsField] and [HasMany]. *)
Theorem flag_defaults c s :
  In c field_classes ->
  exists self,
    construct c [VStr s] [] = Ok self /\
    getattr self "required" = Ok (VBool false) /\
    getattr self "exclude_from_list" = Ok (VBool false) /\
    getattr self "exclude_from_detail" = Ok (VBool false) /\
    getattr self "exclude_from_create" = Ok (VBool false) /\
    getattr self "exclude_from_edit" = Ok (VBool false) /\
    getattr self "searchable" = Ok (VBool true) /\
    getattr self "orderable" = Ok (VBool true) /\
    getattr self "form_js" = Ok VNone /\
    getattr self "display_js" = Ok VNone /\
    getattr self "is_array" =
    Ok (VBool (String.eqb (cname c) "TagsField" || String.eqb (cname c) "HasMany")).
Proof.
  intros Hc. unfold field_classes in Hc. simpl in Hc.
  repeat (destruct Hc as [<- | Hc];
          [eexists; split; [reflexivity|]; repeat split; reflexivity|]).
  contradiction.
Qed.

Lemma flag_defaults_witness :
  exists self,
    construct TagsField [VStr "labels"] [] = Ok self /\
    getattr self "required" = Ok (VBool false) /\
    getattr self "exclude_from_list" = Ok (VBool false) /\
    getattr self "exclude_from_detail" = Ok (VBool false) /\
    getattr self "exclude_from_create" = Ok (VBool false) /\
    getattr self "exclude_from_edit" = Ok (VBool false) /\
    getattr self "searchable" = Ok (VBool true) /\
    getattr self "orderable" = Ok (VBool true) /\
    getattr self "form_js" = Ok VNone /\
    getattr self "display_js" = Ok VNone /\
    getattr self "is_array" = Ok (VBool true).
Proof.
  apply (flag_defaults TagsField "labels"). simpl. tauto.
Defined.

(* ------------------------------------------------------------------ *)
(** ** Which classes have [input_params], and what it passes on *)



Lemma getattr_field c args kwargs self k :
  In c field_classes -> construct c args kwargs = Ok self ->
  In k (field_names c) ->
  exists v, assoc k (inst_dict self) = Some v /\ getattr self k = Ok v.
Proof.
  intros Hc H Hk. destruct (construct_inv _ _ _ _ Hc H) as (_ & Hkeys & _).
  rewrite <- Hkeys in Hk. destruct (assoc_In _ _ Hk) as [v Hv].
  exists v. split; [assumption|]. unfold getattr. now rewrite Hv.
Qed.

Lemma getattr_class_attr c args kwargs self a :
  In c field_classes -> construct c args kwargs = Ok self ->
  ~ In a (field_names c) ->
  getattr self a = match class_getattr c a with
                   | Some v => Ok v
                   | None => Raise AttributeError
                   end.
Proof.
  intros Hc H Ha. destruct (construct_inv _ _ _ _ Hc H) as (Hcls & Hkeys & _).
  rewrite <- Hkeys in Ha. apply assoc_None in Ha.
  unfold getattr. now rewrite Ha, Hcls.
Qed.

(** X8.  For [StringField], [EmailField] and [PhoneField], however the
    instance was constructed, [input_params] passes the helper the one entry
    [type], with the class constant [input_type]: [phone] for [PhoneField],
    [text] for the two others.  No constructor argument changes it. *)
Theorem text_input_params c args kwargs self h :
  In c text_classes -> construct c args kwargs = Ok self ->
  input_params h self =
  h [("type", VStr (if String.eqb (cname c) "PhoneField" then "phone" else "text"))].
Proof.
  intros Hc H.
  assert (Hf : In c field_classes).
  { simpl in Hc. unfold field_classes. simpl. tauto. }
  destruct (construct_inv _ _ _ _ Hf H) as (Hcls & _).
  assert (Hi : ~ In "input_type" (field_names c)).
  { simpl in Hc. destruct Hc as [<- | [<- | [<- | []]]];
      vm_compute; intuition discriminate. }
  pose proof (getattr_class_attr _ _ _ _ "input_type" Hf H Hi) as Hg.
  unfold input_params, StringField__input_params. rewrite Hcls, Hg.
  simpl in Hc. destruct Hc as [<- | [<- | [<- | []]]]; reflexivity.
Qed.

Lemma text_input_params_witness :
  input_params html_params
    {| cls := EmailField;
       inst_dict := ("name", VStr "mail") :: ("label", VStr "Mail")
                      :: map (fill []) (rest_fields EmailField) |}
  = html_params [("type", VStr "text")].
Proof.
  apply (text_input_params EmailField [VStr "mail"] [] _ html_params).
  - simpl. tauto.
  - reflexivity.
Defined.

(** X9.  For a [TextAreaField], however it was constructed, [input_params]
    passes the helper two entries, [minlength] first and [maxlength] second,
    with the values the mapping of the field has for them; [type] is not
    passed, although the class inherits [input_type]. *)
Theorem textarea_input_params args kwargs self h :
  construct TextAreaField args kwargs = Ok self ->
  exists d mn mx,
    dict self = Ok d /\
    assoc "minlength" d = Some mn /\ assoc "maxlength" d = Some mx /\
    getattr self "input_type" = Ok (VStr "text") /\
    input_params h self = h [("minlength", mn); ("maxlength", mx)].
Proof.
  intros H.
  assert (Hf : In TextAreaField field_classes) by (simpl; tauto).
  destruct (getattr_field _ _ _ _ "minlength" Hf H) as (mn & Amn & Gmn);
    [vm_compute; tauto|].
  destruct (getattr_field _ _ _ _ "maxlength" Hf H) as (mx & Amx & Gmx);
    [vm_compute; tauto|].
  destruct (construct_inv _ _ _ _ Hf H) as (Hcls & _).
  exists (inst_dict self), mn, mx. repeat split; try assumption.
  - eapply dict_of_constructed; eassumption.
  - rewrite (getattr_class_attr _ _ _ _ "input_type" Hf H); [reflexivity|].
    vm_compute. intuition discriminate.
  - unfold input_params, TextAreaField__input_params. rewrite Hcls, Gmn, Gmx.
    reflexivity.
Qed.

Lemma textarea_input_params_witness :
  exists d mn mx,
    dict {| cls := TextAreaField;
            inst_dict := ("name", VStr "bio") :: ("label", VStr "Bio")
                           :: map (fill [("maxlength", VInt 500)])
                                  (rest_fields TextAreaField) |} = Ok d /\
    assoc "minlength" d = Some mn /\ assoc "maxlength" d = Some mx /\
    getattr {| cls := TextAreaField;
               inst_dict := ("name", VStr "bio") :: ("label", VStr "Bio")
                              :: map (fill [("maxlength", VInt 500)])
                                     (rest_fields TextAreaField) |} "input_type"
    = Ok (VStr "text") /\
    input_params html_params
      {| cls := TextAreaField;
         inst_dict := ("name", VStr "bio") :: ("label", VStr "Bio")
                        :: map (fill [("maxlength", VInt 500)])
                               (rest_fields TextAreaField) |}
    = html_params [("minlength", mn); ("maxlength", mx)].
Proof.
  apply (textarea_input_params [VStr "bio"] [("maxlength", VInt 500)] _ html_params).
  reflexivity.
Defined.

(* ------------------------------------------------------------------ *)
(** ** Attributes assigned after construction *)




(** X11.  A field assigned on a constructed instance shows in the mapping:
    [dict] then gives the former mapping with the new value at that key, the
    keys and their order unchanged.  Nothing is derived again; in particular
    assigning [name] leaves the entry [label] as it was. *)
Theorem field_assignment c args kwargs self a v :
  In c field_classes -> construct c args kwargs = Ok self ->
  In a (field_names c) ->
  exists d,
    dict self = Ok d /\
    dict (setattr self a v) = Ok (dict_set d a v) /\
    keys (dict_set d a v) = keys d /\
    assoc a (dict_set d a v) = Some v /\
    (forall b, b <> a -> assoc b (dict_set d a v) = assoc b d).
Proof.
  intros Hc H Ha. destruct (construct_inv _ _ _ _ Hc H) as (Hcls & Hkeys & _).
  destruct (field_class_shape c Hc) as (_ & _ & _ & Hd).
  exists (inst_dict self).
  assert (Hk : keys (dict_set (inst_dict self) a v) = keys (inst_dict self)).
  { apply keys_dict_set. now rewrite Hkeys. }
  repeat split.
  - eapply dict_of_constructed; eassumption.
  - unfold dict. simpl cls. rewrite Hcls, Hd.
    rewrite (asdict_exact (setattr self a v)); [reflexivity|].
    simpl. now rewrite Hk, Hkeys, Hcls.
  - exact Hk.
  - apply assoc_dict_set_same.
  - intros b Hb. apply assoc_dict_set_other. congruence.
Qed.

Lemma field_assignment_witness :
  exists d,
    dict {| cls := FileField;
            inst_dict := ("name", VStr "cv") :: ("label", VStr "Cv")
                           :: map (fill []) (rest_fields FileField) |} = Ok d /\
    dict (setattr {| cls := FileField;
                     inst_dict := ("name", VStr "cv") :: ("label", VStr "Cv")
                                    :: map (fill []) (rest_fields FileField) |}
                  "name" (VStr "resume")) = Ok (dict_set d "name" (VStr "resume")) /\
    keys (dict_set d "name" (VStr "resume")) = keys d /\
    assoc "name" (dict_set d "name" (VStr "resume")) = Some (VStr "resume") /\
    (forall b, b <> "name" ->
               assoc b (dict_set d "name" (VStr "resume")) = assoc b d).
Proof.
  apply (field_assignment FileField [VStr "cv"] [] _ "name" (VStr "resume")).
  - simpl. tauto.
  - reflexivity.
  - vm_compute. tauto.
Defined.

(* ------------------------------------------------------------------ *)
(** ** Order of the fields, type tags *)

Lemma keys_set_field_app fs n d :
  exists extra, keys (set_field fs n d) = (keys fs ++ extra)%list.
Proof.
  induction fs as [|[n' d'] fs [extra IH]]; simpl.
  - exists [n]. reflexivity.
  - destruct (String.eqb n n') eqn:E; simpl.
    + apply String.eqb_eq in E. subst. exists []. now rewrite app_nil_r.
    + exists extra. now rewrite IH.
Qed.

Lemma keys_add_fields_app b body : forall fs,
  exists extra, keys (add_fields b body fs) = (keys fs ++ extra)%list.
Proof.
  unfold add_fields. induction body as [|st body IH]; intros fs; simpl.
  - exists []. now rewrite app_nil_r.
  - destruct st as [n d | n v | m]; try apply IH.
    destruct (keys_set_field_app fs n (field_default b n d)) as [e1 H1].
    destruct (IH (set_field fs n (field_default b n d))) as [e2 H2].
    exists (e1 ++ e2)%list. now rewrite H2, H1, app_assoc.
Qed.

(** X12.  A class keeps the fields of its base in their places and puts its
    new fields after them, also when it gives an inherited field another
    default; so the fields of every class of the module begin with the
    seventeen fields of [BaseField], in the same order, and a positional
    argument means the same in every class. *)
Theorem fields_extend_base :
  (forall cn b body,
      exists extra,
        field_names (Derive cn b body) = (field_names b ++ extra)%list) /\
  Forall (fun c => exists extra,
              field_names c = (field_names BaseField ++ extra)%list /\
              length (field_names BaseField) = 17)
         field_classes.
Proof.
  split.
  - intros cn b body. unfold field_names. simpl. apply keys_add_fields_app.
  - unfold field_classes.
    repeat (apply Forall_cons; [eexists; split; reflexivity|]).
    apply Forall_nil.
Qed.

Lemma type_tag_table :
  forallb (fun p => Bool.eqb (String.eqb (type_tag (fst p)) (type_tag (snd p)))
                             (String.eqb (tag_group (cname (fst p)))
                                         (tag_group (cname (snd p)))))
          (list_prod field_classes field_classes) = true.
Proof. vm_compute. reflexivity. Qed.

(** X13.  The default of [type] does not tell every class from every other:
    [PhoneField] has the tag of [StringField], and [HasOne] and [HasMany]
    have the tag of [RelationField].  Apart from these, two classes of the
    module have the same tag only if they are the same class. *)
Theorem type_tag_same c1 c2 :
  In c1 field_classes -> In c2 field_classes ->
  (type_tag c1 = type_tag c2 <->
   tag_group (cname c1) = tag_group (cname c2)).
Proof.
  intros H1 H2. pose proof type_tag_table as T.
  rewrite forallb_forall in T.
  specialize (T (c1, c2) (proj2 (in_prod_iff _ _ _ _) (conj H1 H2))).
  simpl in T. apply Bool.eqb_prop in T.
  rewrite <- !String.eqb_eq. rewrite T. tauto.
Qed.

Lemma type_tag_same_witness :
  type_tag PhoneField = type_tag StringField <->
  tag_group (cname PhoneField) = tag_group (cname StringField).
Proof.
  apply (type_tag_same PhoneField StringField); simpl; tauto.
Defined.

(* ------------------------------------------------------------------ *)
(** ** [from_enum] on what is not an enumeration *)

Lemma enum_entry_outcome e :
  enum_entry e = if has_name_value e then Ok (obj_entry e)
                 else Raise AttributeError.
Proof.
  unfold enum_entry, has_name_value, obj_entry, obj_getattr.
  destruct (assoc "name" (obj_attrs e)); simpl; [|reflexivity].
  destruct (assoc "value" (obj_attrs e)); reflexivity.
Qed.

Lemma map_enum_entry_ok items :
  forallb has_name_value items = true ->
  map_outcome enum_entry items = Ok (map obj_entry items).
Proof.
  induction items as [|e items IH]; simpl; intros H; [reflexivity|].
  apply andb_true_iff in H as [He Hi].
  now rewrite enum_entry_outcome, He, (IH Hi).
Qed.

Lemma map_enum_entry_fail items :
  forallb has_name_value items = false ->
  map_outcome enum_entry items = Raise AttributeError.
Proof.
  induction items as [|e items IH]; simpl; intros H; [discriminate|].
  rewrite enum_entry_outcome. destruct (has_name_value e); simpl in *.
  - now rewrite (IH H).
  - reflexivity.
Qed.

(** X14.  [from_enum] reads [name] and [value] on every object the iteration
    yields before it makes the field: when one of them lacks [name] or
    [value] the call fails with [AttributeError], whatever the class, the
    field name and the other arguments are. *)
Theorem from_enum_item_without_name cls name tname items is_array searchable sbt :
  forallb has_name_value items = false ->
  from_enum cls name (IterableType tname items) is_array searchable sbt
  = Raise AttributeError.
Proof.
  intros H. unfold from_enum. cbn [py_iter bind].
  now rewrite (map_enum_entry_fail _ H).
Qed.

Lemma from_enum_item_without_name_witness :
  from_enum EnumField (VStr "status")
    (IterableType "Choices"
       [ mkObj [("name", VStr "NEW"); ("value", VStr "new")];
         mkObj [("label", VStr "Done")] ])
    (VBool false) (VBool true) (VStr "string")
  = Raise AttributeError.
Proof.
  apply (from_enum_item_without_name EnumField (VStr "status") "Choices").
  reflexivity.
Defined.

(** X15.  [from_enum] looks at attributes, not at types: for an iterable
    whose objects all have [name] and [value], enumeration or not, the field
    has one entry per object, in the order of the iteration, with the
    object's [name] and [value]; [is_array], [searchable] and
    [search_builder_type] are stored as given, and the label is derived from
    the field name. *)
Theorem from_enum_duck_typed name tname items is_array searchable sbt :
  forallb has_name_value items = true ->
  exists self,
    from_enum EnumField (VStr name) (IterableType tname items)
              is_array searchable sbt = Ok self /\
    getattr self "values" = Ok (VList (map obj_entry items)) /\
    getattr self "is_array" = Ok is_array /\
    getattr self "searchable" = Ok searchable /\
    getattr self "search_builder_type" = Ok sbt /\
    getattr self "type" = Ok (VStr "enum") /\
    getattr self "label" = Ok (VStr (capitalize (replace_char "_" " " name))).
Proof.
  intros H. unfold from_enum. cbn [py_iter bind].
  rewrite (map_enum_entry_ok _ H). cbn [bind].
  generalize (map obj_entry items). intros vs.
  eexists. split; [reflexivity|]. repeat split; reflexivity.
Qed.

Lemma from_enum_duck_typed_witness :
  exists self,
    from_enum EnumField (VStr "order_state")
      (IterableType "Choices" [ mkObj [("name", VStr "NEW"); ("value", VInt 1)] ])
      (VBool true) (VBool false) VNone = Ok self /\
    getattr self "values" =
    Ok (VList [ VDict [("name", VStr "NEW"); ("value", VInt 1)] ]) /\
    getattr self "is_array" = Ok (VBool true) /\
    getattr self "searchable" = Ok (VBool false) /\
    getattr self "search_builder_type" = Ok VNone /\
    getattr self "type" = Ok (VStr "enum") /\
    getattr self "label" = Ok (VStr "Order state").
Proof.
  apply (from_enum_duck_typed "order_state" "Choices"
           [ mkObj [("name", VStr "NEW"); ("value", VInt 1)] ]
           (VBool true) (VBool false) VNone).
  reflexivity.
Defined.

(* ------------------------------------------------------------------ *)
(** ** Shape of the derived label *)










